(** * bycycle.features.features: the cycle-by-cycle feature orchestrator

    A shallow embedding of [compute_features] (bycycle/features/features.py)
    and the properties of its configuration handling, dispatch and frame.

    The function drives four collaborators that live in other modules of the
    package ([compute_shape_features], [compute_burst_features],
    [detect_bursts_cycles], [detect_bursts_df_amp]) and one pandas call
    ([pd.concat]).  The collaborators are taken as an interface; the
    orchestrator is translated statement by statement. *)

From Stdlib Require Import ZArith.
From stdpp Require Import base gmap strings list fin_maps.

Set Warnings "-register-all".

(* ===================================================================== *)
(** ** Python data *)
(* ===================================================================== *)

(** Python data as it appears in keyword configurations: [None], booleans,
    numbers, strings, tuples, lists, sets and (nested) dictionaries with
    string keys, which is what [**kwargs] takes.  Numbers are carried as
    integers; the orchestrator never computes on them.  A [VDict] stands for
    an instance of [dict]; objects of other mapping classes are not part of
    this universe, and what is stated about amplitude mode is stated for
    dictionaries or for one of the values listed here. *)
Inductive value :=
| VNone
| VBool (b : bool)
| VInt (n : Z)
| VStr (s : string)
| VTuple (items : list value)
| VList (items : list value)
| VSet (items : list value)
| VDict (entries : gmap string value).

Global Instance value_inhabited : Inhabited value := populate VNone.

(** Object references.  The caller's objects live in a store; the argument
    [burst_detection_kwargs] is passed as a reference so that in-place
    updates ([dict.pop]) are visible to the caller afterwards.  A reference
    the store does not bind reads as [None] (total lookup [!!!]). *)
Abbreviation loc := positive.
Abbreviation pydict := (gmap string value).
Abbreviation store := (gmap loc value).

(** The voltage time series [sig]; samples in fixed units. *)
Abbreviation signal := (list Z).

Inductive exn :=
| ValueError (msg : string)
| AttributeError (msg : string)
| TypeError (msg : string)
| KeyError (key : string)
| InvalidIndexError
| UpstreamError (msg : string).

Inductive result (A : Type) :=
| Ok (a : A)
| Raise (e : exn).
Arguments Ok {A} a.
Arguments Raise {A} e.

Definition is_ok {A} (r : result A) : bool :=
  match r with Ok _ => true | Raise _ => false end.

Definition result_map {A B} (f : A → B) (r : result A) : result B :=
  match r with Ok a => Ok (f a) | Raise e => Raise e end.

(** [v == s] for a string literal [s]: only a string with the same
    characters is equal to it. *)
Definition py_eq_str (v : value) (s : string) : bool :=
  match v with
  | VStr s' => bool_decide (s' = s)
  | _ => false
  end.

(** [isinstance(v, dict)] *)
Definition isinstance_dict (v : value) : bool :=
  match v with VDict _ => true | _ => false end.

(* ===================================================================== *)
(** ** Tables *)
(* ===================================================================== *)

Inductive cell :=
| NaN
| Num (x : Z)
| Flag (b : bool).

Global Instance cell_eq_dec : EqDecision cell.
Proof. solve_decision. Defined.

(** A pandas DataFrame: row labels and named columns, in column order.
    Column names need not be unique. *)
Record DataFrame := mkDataFrame {
  df_index : list Z;
  df_columns : list (string * list cell)
}.

Definition n_rows (df : DataFrame) : nat := length (df_index df).

Definition column_names (df : DataFrame) : list string :=
  (df_columns df).*1.

(** Row [i] of a table: the cells of every column at position [i]. *)
Definition row (df : DataFrame) (i : nat) : list (option cell) :=
  map (λ c : string * list cell, c.2 !! i) (df_columns df).

(** Position of a row label in an index. *)
Fixpoint index_of (lbl : Z) (idx : list Z) : option nat :=
  match idx with
  | [] => None
  | x :: rest => if decide (x = lbl) then Some 0 else S <$> index_of lbl rest
  end.

(** [df.reindex(idx)]: rows picked by label, [NaN] where the label is
    missing. *)
Definition reindex_column (old_idx new_idx : list Z) (col : list cell) : list cell :=
  map (λ lbl, match index_of lbl old_idx with
              | Some i => default NaN (col !! i)
              | None => NaN
              end) new_idx.

Definition reindex (df : DataFrame) (new_idx : list Z) : list (string * list cell) :=
  map (λ c : string * list cell, (c.1, reindex_column (df_index df) new_idx c.2))
      (df_columns df).

(** [pd.concat((a, b), axis=1)] with the defaults the source leaves in place
    ([join='outer'], [verify_integrity=False]): rows are aligned on the
    index, the columns of [b] are put after those of [a], and column names
    are not checked.  With identical indexes no re-indexing takes place;
    otherwise the union of the labels is used, which pandas refuses
    ([InvalidIndexError]) when an index holds a label twice. *)
Definition pd_concat (a b : DataFrame) : result DataFrame :=
  if decide (df_index a = df_index b) then
    Ok (mkDataFrame (df_index a) (df_columns a ++ df_columns b))
  else if decide (NoDup (df_index a) ∧ NoDup (df_index b)) then
    let idx := df_index a ++ filter (λ lbl, lbl ∉ df_index a) (df_index b) in
    Ok (mkDataFrame idx (reindex a idx ++ reindex b idx))
  else Raise InvalidIndexError.

(* ===================================================================== *)
(** ** Effects: object store, exceptions and a call log *)
(* ===================================================================== *)

(** What the orchestrator asks of its surroundings, in program order. *)
Inductive event :=
| EvShape (sig : signal) (fs f_range center_extrema find_extrema_kwargs : value)
          (hilbert_increase_n : bool)
| EvBurst (df_shape_features df_samples : DataFrame) (sig : signal)
          (dual_threshold_kwargs : option pydict)
| EvConcat (a b : DataFrame)
| EvCycles (df_features : DataFrame) (kwargs : pydict)
| EvDfAmp (df_features : DataFrame) (kwargs : pydict).

(** A computation reads and updates the caller's store, may raise, and
    records the calls it made.  Updates made before an exception stay. *)
Record outcome (A : Type) := Outcome {
  res : result A;
  final : store;
  log : list event
}.
Arguments Outcome {A} res final log.
Arguments res {A} o.
Arguments final {A} o.
Arguments log {A} o.

Definition M (A : Type) : Type := store → outcome A.

Definition ret {A} (a : A) : M A := λ h, Outcome (Ok a) h [].

Definition raise {A} (e : exn) : M A := λ h, Outcome (Raise e) h [].

Definition bind {A B} (m : M A) (k : A → M B) : M B :=
  λ h, match m h with
       | Outcome (Ok a) h1 w1 =>
           match k a h1 with
           | Outcome r h2 w2 => Outcome r h2 (w1 ++ w2)
           end
       | Outcome (Raise e) h1 w1 => Outcome (Raise e) h1 w1
       end.

(** A call to a pure collaborator: logged, then answered. *)
Definition call {A} (ev : event) (r : result A) : M A :=
  λ h, Outcome r h [ev].

Declare Scope py_scope.
Delimit Scope py_scope with py.
Notation "x <- m ;; k" := (bind m (λ x, k))
  (at level 20, m at level 99, k at level 200, only parsing) : py_scope.
Notation "' pat <- m ;; k" := (bind m (λ x, match x with pat => k end))
  (at level 20, pat pattern, m at level 99, k at level 200, only parsing) : py_scope.

(* ===================================================================== *)
(** ** Operations on the object a reference points to *)
(* ===================================================================== *)

(** The double-quote character, for messages that quote a name. *)
Definition dq : string := String (Ascii.ascii_of_nat 34) EmptyString.

(** What [obj.pop(key, default)] raises on an object that is no
    dictionary: a list and a set have a [pop], which does not take two
    arguments; the other values have none. *)
Definition pop_error (v : value) : exn :=
  match v with
  | VList _ => TypeError "pop expected at most 1 argument, got 2"
  | VSet _ => TypeError "set.pop() takes no arguments (2 given)"
  | _ => AttributeError "object has no attribute 'pop'"
  end.

(** [obj.pop(key, default)].  On a dictionary the key is removed in place
    when present, and the dictionary is left as it is otherwise. *)
Definition dict_pop (l : loc) (key : string) (dflt : value) : M value :=
  λ h, match h !!! l with
       | VDict d =>
           match d !! key with
           | Some x => Outcome (Ok x) (<[l := VDict (delete key d)]> h) []
           | None => Outcome (Ok dflt) h []
           end
       | v => Outcome (Raise (pop_error v)) h []
       end.

(** [key in obj] *)
Definition py_contains (key : string) (l : loc) : M bool :=
  λ h, match h !!! l with
       | VDict d => Outcome (Ok (bool_decide (is_Some (d !! key)))) h []
       | VStr s => Outcome (Ok (bool_decide (is_Some (String.index 0 key s)))) h []
       | VTuple items | VList items | VSet items =>
           Outcome (Ok (existsb (λ v, py_eq_str v key) items)) h []
       | _ => Outcome (Raise (TypeError "argument is not iterable")) h []
       end.

(** [obj[key]] for a string key *)
Definition py_getitem (l : loc) (key : string) : M value :=
  λ h, match h !!! l with
       | VDict d =>
           match d !! key with
           | Some x => Outcome (Ok x) h []
           | None => Outcome (Raise (KeyError key)) h []
           end
       | VStr _ | VTuple _ | VList _ =>
           Outcome (Raise (TypeError "indices must be integers")) h []
       | _ => Outcome (Raise (TypeError "object is not subscriptable")) h []
       end.

(** [isinstance(obj, dict)] on a reference *)
Definition py_isinstance_dict (l : loc) : M bool :=
  λ h, Outcome (Ok (isinstance_dict (h !!! l))) h [].

(** The local name [burst_detection_kwargs] after line 132: either a fresh
    empty dictionary, or still the caller's object. *)
Inductive binding :=
| FreshEmpty
| Caller (l : loc).

(** [**kwargs]: the entries of the dictionary at the time of the call. *)
Definition unpack (b : binding) : M pydict :=
  λ h, match b with
       | FreshEmpty => Outcome (Ok ∅) h []
       | Caller l =>
           match h !!! l with
           | VDict d => Outcome (Ok d) h []
           | _ => Outcome (Raise (TypeError "argument after ** must be a mapping")) h []
           end
       end.

(* ===================================================================== *)
(** ** The collaborators *)
(* ===================================================================== *)

(** The four functions [compute_features] imports from the rest of the
    package.  They answer from their arguments alone and write to nothing
    the caller can see. *)
Class Collaborators := {
  compute_shape_features :
    signal → value → value → value → value → bool → result (DataFrame * DataFrame);
  compute_burst_features :
    DataFrame → DataFrame → signal → option pydict → result DataFrame;
  detect_bursts_cycles : DataFrame → pydict → result DataFrame;
  detect_bursts_df_amp : DataFrame → pydict → result DataFrame
}.

(** Modelled from the spec: the Burst Metric Computer
    ([bycycle.features.burst.compute_burst_features]) is not part of this
    file's source.  Sections 3 and 4.2 of the specification say it produces
    one row of burst metrics per cycle of the shape-feature table, the two
    tables being indexed identically. *)
Definition burst_metrics_per_cycle (C : Collaborators) : Prop :=
  ∀ sf smp sig dual bf,
    compute_burst_features sf smp sig dual = Ok bf → df_index bf = df_index sf.

(** Modelled from the spec: the Burst Classifiers
    ([bycycle.burst.detect_bursts_cycles], [detect_bursts_df_amp]) are not
    part of this file's source.  Section 4.1 step 5 says a classifier
    produces the final table with [is_burst] appended: the rows and columns
    it was given, followed by one boolean column. *)
Definition appends_is_burst (classify : DataFrame → pydict → result DataFrame) : Prop :=
  ∀ df kw out,
    classify df kw = Ok out →
    df_index out = df_index df ∧
    ∃ flags, df_columns out = df_columns df ++ [("is_burst"%string, flags)].

Definition classifiers_append_is_burst (C : Collaborators) : Prop :=
  appends_is_burst detect_bursts_cycles ∧ appends_is_burst detect_bursts_df_amp.

(* ===================================================================== *)
(** ** A small instance of the collaborators *)
(* ===================================================================== *)

(** Stand-ins with the interface of the real functions, used to run the
    orchestrator on concrete inputs.  A cycle is a pair of neighbouring
    samples; every table has one row per cycle. *)
Module Sample.

Definition cycle_index (sig : signal) : list Z :=
  map Z.of_nat (seq 0 (length sig - 1)).

Fixpoint steps (sig : signal) : list Z :=
  match sig with
  | x :: (y :: _) as rest => Z.abs (y - x) :: steps rest
  | _ => []
  end.

Definition get_column (name : string) (df : DataFrame) : list cell :=
  match list_find (λ c : string * list cell, c.1 = name) (df_columns df) with
  | Some (_, c) => c.2
  | None => []
  end.

Definition shape (sig : signal) (fs f_range center_extrema find_extrema_kwargs : value)
    (hilbert_increase_n : bool) : result (DataFrame * DataFrame) :=
  match sig with
  | [] | [_] => Raise (UpstreamError "signal too short")
  | _ =>
      let idx := cycle_index sig in
      Ok (mkDataFrame idx [("period"%string, map (λ _, Num 1) idx);
                           ("volt_amp"%string, map Num (steps sig))],
          mkDataFrame idx [("sample_peak"%string, map Num idx)])
  end.

Definition burst (burst_cols : string)
    (df_shape_features df_samples : DataFrame) (sig : signal)
    (dual_threshold_kwargs : option pydict) : result DataFrame :=
  let idx := df_index df_shape_features in
  match dual_threshold_kwargs with
  | None =>
      let ones := map (λ _, Num 1) idx in
      Ok (mkDataFrame idx [("amp_fraction"%string, ones);
                           ("amp_consistency"%string, ones);
                           ("period_consistency"%string, ones);
                           ("monotonicity"%string, ones)])
  | Some cfg =>
      match cfg !! "amp_threshes"%string with
      | Some (VTuple [VInt lo; VInt hi]) =>
          Ok (mkDataFrame idx
                [(burst_cols,
                  map (λ c, match c with
                            | Num a => Num (if (hi <=? a)%Z then 1 else 0)
                            | _ => NaN
                            end)
                      (get_column "volt_amp" df_shape_features))])
      | _ => Raise (TypeError "amp_threshes must be a pair of numbers")
      end
  end.

(** A classifier accepts the keywords of its signature only, as a Python
    function does, and appends [is_burst]. *)
Definition classify (accepted : gset string) (df_features : DataFrame)
    (kwargs : pydict) : result DataFrame :=
  if decide (dom kwargs ⊆ accepted) then
    Ok (mkDataFrame (df_index df_features)
          (df_columns df_features ++
           [("is_burst"%string, map (λ _, Flag true) (df_index df_features))]))
  else Raise (TypeError "got an unexpected keyword argument").

Definition cycles_keywords : gset string :=
  {[ "amplitude_fraction_threshold"%string;
     "amplitude_consistency_threshold"%string;
     "period_consistency_threshold"%string;
     "monotonicity_threshold"%string;
     "n_cycles_min"%string ]}.

Definition df_amp_keywords : gset string :=
  {[ "burst_fraction_threshold"%string; "n_cycles_min"%string ]}.

Definition collaborators : Collaborators :=
  {| compute_shape_features := shape;
     compute_burst_features := burst "burst_fraction";
     detect_bursts_cycles := classify cycles_keywords;
     detect_bursts_df_amp := classify df_amp_keywords |}.

(** The same, with a burst-metric column that takes a name of the
    shape-feature table. *)
Definition colliding : Collaborators :=
  {| compute_shape_features := shape;
     compute_burst_features := burst "volt_amp";
     detect_bursts_cycles := classify cycles_keywords;
     detect_bursts_df_amp := classify df_amp_keywords |}.

End Sample.

(* ===================================================================== *)
(** ** compute_features *)
(* ===================================================================== *)

Inductive retval :=
| RetTable (df_features : DataFrame)
| RetPair (df_features df_samples : DataFrame).

Definition table_of (r : retval) : DataFrame :=
  match r with
  | RetTable df => df
  | RetPair df _ => df
  end.

Definition invalid_method_message : string :=
  "Invalid argument for " +:+ dq +:+ "burst_detection_method" +:+ dq +:+ "." +:+
  "Either " +:+ dq +:+ "cycles" +:+ dq +:+ " or " +:+ dq +:+ "amplitude" +:+ dq +:+
  " must be specified." +:+ dq.

Section Orchestrator.
Context {C : Collaborators}.
Local Open Scope py_scope.

(** Lines 110-122: the dual-threshold configuration. *)
Definition resolve_dual_threshold_kwargs (fs f_range burst_detection_method : value)
    (burst_detection_kwargs : loc) : M (option pydict) :=
  if py_eq_str burst_detection_method "amplitude" then
    amp_threshes <- dict_pop burst_detection_kwargs "amp_threshes"
                      (VTuple [VInt 1; VInt 2]) ;;
    filter_kwargs <- dict_pop burst_detection_kwargs "filter_kwargs" VNone ;;
    has_n <- py_contains "n_cycles_min" burst_detection_kwargs ;;
    n_cycles_min <- (if has_n : bool
                     then py_getitem burst_detection_kwargs "n_cycles_min"
                     else ret (VInt 3)) ;;
    ret (Some (<["n_cycles_min" := n_cycles_min]>
               (<["filter_kwargs" := filter_kwargs]>
                (<["amp_threshes" := amp_threshes]>
                 (<["f_range" := f_range]>
                  (<["fs" := fs]> (∅ : pydict)))))))
  else ret None.

(** Lines 136-142: the classifier chosen by the method. *)
Definition dispatch (burst_detection_method : value) (df_features : DataFrame)
    (kw : binding) : M DataFrame :=
  if py_eq_str burst_detection_method "cycles" then
    kwargs <- unpack kw ;;
    call (EvCycles df_features kwargs) (detect_bursts_cycles df_features kwargs)
  else if py_eq_str burst_detection_method "amplitude" then
    kwargs <- unpack kw ;;
    call (EvDfAmp df_features kwargs) (detect_bursts_df_amp df_features kwargs)
  else raise (ValueError invalid_method_message).

Definition compute_features (sig : signal)
    (fs f_range center_extrema burst_detection_method : value)
    (burst_detection_kwargs : loc) (find_extrema_kwargs : value)
    (hilbert_increase_n return_samples : bool) : M retval :=
  '(df_shape_features, df_samples) <-
      call (EvShape sig fs f_range center_extrema find_extrema_kwargs
              hilbert_increase_n)
           (compute_shape_features sig fs f_range center_extrema
              find_extrema_kwargs hilbert_increase_n) ;;
  dual_threshold_kwargs <-
      resolve_dual_threshold_kwargs fs f_range burst_detection_method
        burst_detection_kwargs ;;
  df_burst_features <-
      call (EvBurst df_shape_features df_samples sig dual_threshold_kwargs)
           (compute_burst_features df_shape_features df_samples sig
              dual_threshold_kwargs) ;;
  df_features <-
      call (EvConcat df_shape_features df_burst_features)
           (pd_concat df_shape_features df_burst_features) ;;
  is_dict <- py_isinstance_dict burst_detection_kwargs ;;
  df_features <-
      dispatch burst_detection_method df_features
        (if is_dict : bool then Caller burst_detection_kwargs else FreshEmpty) ;;
  if return_samples
  then ret (RetPair df_features df_samples)
  else ret (RetTable df_features).

End Orchestrator.

(* ===================================================================== *)
(** ** Vocabulary of the properties *)
(* ===================================================================== *)

(** The threshold configuration with the documented defaults filled in for
    the fields a dictionary [d] does not give: [amp_threshes = (1, 2)],
    [filter_kwargs = None], [n_cycles_min = 3]. *)
Definition dual_threshold_defaults (fs f_range : value) (d : pydict) : pydict :=
  <["n_cycles_min" := default (VInt 3) (d !! "n_cycles_min")]>
  (<["filter_kwargs" := default VNone (d !! "filter_kwargs")]>
   (<["amp_threshes" := default (VTuple [VInt 1; VInt 2]) (d !! "amp_threshes")]>
    (<["f_range" := f_range]> (<["fs" := fs]> ∅)))).

(** What is left of [d] once [amp_threshes] and [filter_kwargs] are popped. *)
Definition remaining_kwargs (d : pydict) : pydict :=
  delete "filter_kwargs" (delete "amp_threshes" d).

(** The keyword configuration a classifier is called with when the argument
    object is [v]: its entries if it is a dictionary, nothing otherwise. *)
Definition entries_or_empty (v : value) : pydict :=
  match v with VDict d => d | _ => ∅ end.

(** A call that fails without having asked anything of its collaborators. *)
Definition fails_before_any_work {A} (o : outcome A) : Prop :=
  (∃ e, res o = Raise e) ∧ log o = [].

(** A classifier call in a log. *)
Definition is_classifier_call (ev : event) : bool :=
  match ev with
  | EvCycles _ _ | EvDfAmp _ _ => true
  | _ => false
  end.

(** The keyword configurations handed to [detect_bursts_df_amp]. *)
Definition df_amp_kwargs (w : list event) : list pydict :=
  omap (λ ev, match ev with EvDfAmp _ kw => Some kw | _ => None end) w.

(** No keyword configuration handed to [detect_bursts_df_amp] holds one of
    [keys]. *)
Definition df_amp_kwargs_without (keys : list string) {A} (o : outcome A) : Prop :=
  ∀ kw, kw ∈ df_amp_kwargs (log o) → ∀ k, k ∈ keys → kw !! k = None.

(** Two tables share a column name. *)
Definition columns_collide (a b : DataFrame) : Prop :=
  ∃ name, name ∈ column_names a ∧ name ∈ column_names b.

(** The value handed back at lines 144-147. *)
Definition returned (return_samples : bool) (df_samples df_features : DataFrame) : retval :=
  if return_samples then RetPair df_features df_samples else RetTable df_features.

Arguments pd_concat : simpl never.
Arguments resolve_dual_threshold_kwargs : simpl never.

(** Concrete inputs. *)
Module Inputs.

Definition sig : signal := [0; 3; 1; 4; 4]%Z.
Definition fs : value := VInt 500.
Definition f_range : value := VTuple [VInt 8; VInt 12].

(** Object 1 is [None]; object 2 is
    [{'amp_threshes': (0, 3), 'n_cycles_min': 5}]; object 3 is [{}];
    object 4 is the tuple [(1, 2)]. *)
Definition kwargs : pydict :=
  {[ "amp_threshes"%string := VTuple [VInt 0; VInt 3];
     "n_cycles_min"%string := VInt 5 ]}.

Definition heap : store :=
  {[ 1%positive := VNone;
     2%positive := VDict kwargs;
     3%positive := VDict ∅;
     4%positive := VTuple [VInt 1; VInt 2] ]}.

(** Another caller: the same dictionary held at another place. *)
Definition heap' : store := {[ 7%positive := VDict kwargs ]}.

Definition shape_table : DataFrame :=
  mkDataFrame [0; 1; 2; 3]%Z
    [("period"%string, [Num 1; Num 1; Num 1; Num 1]);
     ("volt_amp"%string, [Num 3; Num 2; Num 3; Num 0])].

Definition samples_table : DataFrame :=
  mkDataFrame [0; 1; 2; 3]%Z
    [("sample_peak"%string, [Num 0; Num 1; Num 2; Num 3])].

Definition consistency_table : DataFrame :=
  mkDataFrame [0; 1; 2; 3]%Z
    [("amp_fraction"%string, [Num 1; Num 1; Num 1; Num 1]);
     ("amp_consistency"%string, [Num 1; Num 1; Num 1; Num 1]);
     ("period_consistency"%string, [Num 1; Num 1; Num 1; Num 1]);
     ("monotonicity"%string, [Num 1; Num 1; Num 1; Num 1])].

Definition consistency_merged : DataFrame :=
  mkDataFrame [0; 1; 2; 3]%Z (df_columns shape_table ++ df_columns consistency_table).

(** A burst-metric table whose only column is named [volt_amp]. *)
Definition clashing_table : DataFrame :=
  mkDataFrame [0; 1; 2; 3]%Z
    [("volt_amp"%string, [Num 1; Num 0; Num 1; Num 0])].

(** [compute_features(sig, 500, (8, 12), 'peak', method, obj)] *)
Definition run (C : Collaborators) (method : string) (obj : loc)
    (return_samples : bool) (h : store) : outcome retval :=
  @compute_features C sig fs f_range (VStr "peak") (VStr method) obj VNone false
    return_samples h.

End Inputs.

(* ===================================================================== *)
(** ** Facts about the store and the method test *)
(* ===================================================================== *)

Lemma lookup_total_dict (h : store) (l : loc) (d : pydict) :
  h !!! l = VDict d → h !! l = Some (VDict d).
Proof.
  rewrite lookup_total_alt.
  destruct (h !! l) as [v|]; simpl; [congruence | discriminate].
Qed.

Lemma py_eq_str_true (v : value) (s : string) :
  py_eq_str v s = true → v = VStr s.
Proof.
  destruct v; simpl; try discriminate.
  intros H. apply bool_decide_eq_true in H. by subst.
Qed.


Lemma remaining_kwargs_lookup (d : pydict) (k : string) :
  remaining_kwargs d !! k =
    if decide (k = "amp_threshes"%string ∨ k = "filter_kwargs"%string)
    then None else d !! k.
Proof.
  unfold remaining_kwargs.
  case_decide as Hk.
  - destruct Hk as [-> | ->].
    + rewrite lookup_delete_ne by done. apply lookup_delete_eq.
    + apply lookup_delete_eq.
  - rewrite !lookup_delete_ne; [done | intros ?; subst; tauto ..].
Qed.

(** Popping both keys leaves the caller's object holding [remaining_kwargs]. *)
Lemma pop_both (h : store) (l : loc) (d : pydict) :
  h !!! l = VDict d →
  ∃ h1,
    dict_pop l "amp_threshes" (VTuple [VInt 1; VInt 2]) h =
      Outcome (Ok (default (VTuple [VInt 1; VInt 2]) (d !! "amp_threshes"))) h1 [] ∧
    dict_pop l "filter_kwargs" VNone h1 =
      Outcome (Ok (default VNone (d !! "filter_kwargs")))
              (<[l := VDict (remaining_kwargs d)]> h) [] ∧
    h1 !!! l = VDict (delete "amp_threshes" d).
Proof.
  intros Hl. pose proof (lookup_total_dict _ _ _ Hl) as Hl'.
  unfold dict_pop, remaining_kwargs. rewrite Hl.
  destruct (d !! "amp_threshes") as [a|] eqn:Ha; simpl.
  - eexists; split; [reflexivity|].
    rewrite lookup_total_insert_eq. cbn beta iota.
    rewrite lookup_delete_ne by done.
    split; [|done].
    destruct (d !! "filter_kwargs") as [f|] eqn:Hf; simpl.
    + by rewrite insert_insert_eq.
    + rewrite (delete_id (delete _ d) "filter_kwargs"); [done|].
      by rewrite lookup_delete_ne.
  - exists h; split; [reflexivity|].
    rewrite Hl, (delete_id d "amp_threshes") by done.
    split; [|done].
    destruct (d !! "filter_kwargs") as [f|] eqn:Hf; simpl.
    + done.
    + rewrite (delete_id d "filter_kwargs") by done.
      by rewrite insert_id.
Qed.

Section Resolution.
Context {C : Collaborators}.

Lemma resolve_not_amplitude fs f_range m l h :
  py_eq_str m "amplitude" = false →
  resolve_dual_threshold_kwargs fs f_range m l h = Outcome (Ok None) h [].
Proof. intros Hm. unfold resolve_dual_threshold_kwargs. by rewrite Hm. Qed.

Lemma resolve_amplitude_not_dict fs f_range m l h :
  py_eq_str m "amplitude" = true →
  isinstance_dict (h !!! l) = false →
  resolve_dual_threshold_kwargs fs f_range m l h =
    Outcome (Raise (pop_error (h !!! l))) h [].
Proof.
  intros Hm Hd. unfold resolve_dual_threshold_kwargs, bind, dict_pop.
  rewrite Hm. by destruct (h !!! l).
Qed.

Lemma resolve_amplitude_dict fs f_range m l h d :
  py_eq_str m "amplitude" = true →
  h !!! l = VDict d →
  resolve_dual_threshold_kwargs fs f_range m l h =
    Outcome (Ok (Some (dual_threshold_defaults fs f_range d)))
            (<[l := VDict (remaining_kwargs d)]> h) [].
Proof.
  intros Hm Hl. unfold resolve_dual_threshold_kwargs. rewrite Hm.
  destruct (pop_both h l d Hl) as (h1 & Hp1 & Hp2 & _).
  unfold bind at 1. rewrite Hp1.
  unfold bind at 1. rewrite Hp2.
  unfold bind, py_contains, py_getitem, ret, dual_threshold_defaults.
  rewrite !lookup_total_insert_eq.
  rewrite (remaining_kwargs_lookup d "n_cycles_min").
  rewrite decide_False by (intros [?|?]; discriminate).
  destruct (d !! "n_cycles_min") as [n|] eqn:Hn; simpl.
  - rewrite lookup_total_insert_eq. cbn beta iota.
    rewrite (remaining_kwargs_lookup d "n_cycles_min").
    rewrite decide_False by (intros [?|?]; discriminate).
    by rewrite Hn.
  - done.
Qed.

End Resolution.

(* ===================================================================== *)
(** ** The runs of compute_features, path by path *)
(* ===================================================================== *)

Section Runs.
Context {C : Collaborators}.
Variables (sig : signal) (fs f_range center_extrema find_extrema_kwargs : value).
Variable hilbert_increase_n : bool.

Local Abbreviation shape_result :=
  (compute_shape_features sig fs f_range center_extrema find_extrema_kwargs
     hilbert_increase_n).
Local Abbreviation ev_shape :=
  (EvShape sig fs f_range center_extrema find_extrema_kwargs hilbert_increase_n).
Local Abbreviation features m l rs :=
  (compute_features sig fs f_range center_extrema m l find_extrema_kwargs
     hilbert_increase_n rs).

Lemma run_shape_fails m l rs h e :
  shape_result = Raise e →
  features m l rs h = Outcome (Raise e) h [ev_shape].
Proof.
  intros Hs. unfold compute_features, bind, call. by rewrite Hs.
Qed.

Lemma run_not_amplitude m l rs h sf smp :
  py_eq_str m "amplitude" = false →
  shape_result = Ok (sf, smp) →
  features m l rs h =
    match compute_burst_features sf smp sig None with
    | Raise e => Outcome (Raise e) h [ev_shape; EvBurst sf smp sig None]
    | Ok bf =>
        match pd_concat sf bf with
        | Raise e =>
            Outcome (Raise e) h [ev_shape; EvBurst sf smp sig None; EvConcat sf bf]
        | Ok merged =>
            if py_eq_str m "cycles" then
              Outcome
                (result_map (returned rs smp)
                   (detect_bursts_cycles merged (entries_or_empty (h !!! l))))
                h
                [ev_shape; EvBurst sf smp sig None; EvConcat sf bf;
                 EvCycles merged (entries_or_empty (h !!! l))]
            else
              Outcome (Raise (ValueError invalid_method_message)) h
                [ev_shape; EvBurst sf smp sig None; EvConcat sf bf]
        end
    end.
Proof.
  intros Hm Hs. unfold compute_features, bind, call. rewrite Hs.
  rewrite (resolve_not_amplitude _ _ _ _ _ Hm).
  destruct (compute_burst_features sf smp sig None) as [bf|e]; [|done].
  destruct (pd_concat sf bf) as [merged|e]; [|done].
  unfold py_isinstance_dict, dispatch, bind, unpack, call, raise, ret.
  rewrite Hm.
  destruct (py_eq_str m "cycles"); [|by destruct (h !!! l)].
  destruct (h !!! l) eqn:Hl; simpl; rewrite ?Hl;
    by destruct (detect_bursts_cycles merged _), rs.
Qed.

Lemma run_amplitude_not_dict m l rs h sf smp :
  py_eq_str m "amplitude" = true →
  shape_result = Ok (sf, smp) →
  isinstance_dict (h !!! l) = false →
  features m l rs h =
    Outcome (Raise (pop_error (h !!! l))) h [ev_shape].
Proof.
  intros Hm Hs Hd. unfold compute_features, bind, call. rewrite Hs.
  by rewrite (resolve_amplitude_not_dict _ _ _ _ _ Hm Hd).
Qed.

Lemma run_amplitude_dict m l rs h sf smp d :
  py_eq_str m "amplitude" = true →
  shape_result = Ok (sf, smp) →
  h !!! l = VDict d →
  features m l rs h =
    let cfg := Some (dual_threshold_defaults fs f_range d) in
    let h' := <[l := VDict (remaining_kwargs d)]> h in
    match compute_burst_features sf smp sig cfg with
    | Raise e => Outcome (Raise e) h' [ev_shape; EvBurst sf smp sig cfg]
    | Ok bf =>
        match pd_concat sf bf with
        | Raise e =>
            Outcome (Raise e) h' [ev_shape; EvBurst sf smp sig cfg; EvConcat sf bf]
        | Ok merged =>
            Outcome
              (result_map (returned rs smp)
                 (detect_bursts_df_amp merged (remaining_kwargs d)))
              h'
              [ev_shape; EvBurst sf smp sig cfg; EvConcat sf bf;
               EvDfAmp merged (remaining_kwargs d)]
        end
    end.
Proof.
  intros Hm Hs Hl. unfold compute_features, bind, call. rewrite Hs.
  rewrite (resolve_amplitude_dict _ _ _ _ _ _ Hm Hl). cbn zeta.
  destruct (compute_burst_features sf smp sig _) as [bf|e]; [|done].
  destruct (pd_concat sf bf) as [merged|e]; [|done].
  unfold py_isinstance_dict, dispatch, bind, unpack, call, raise, ret.
  rewrite Hm, lookup_total_insert_eq.
  assert (py_eq_str m "cycles" = false) as ->.
  { apply py_eq_str_true in Hm. by subst. }
  simpl. rewrite lookup_total_insert_eq.
  by destruct (detect_bursts_df_amp merged _), rs.
Qed.

End Runs.

(* ===================================================================== *)
(** ** Properties of compute_features *)
(* ===================================================================== *)

(** Membership in an explicit log, one event at a time. *)
Ltac in_log H :=
  repeat match type of H with
         | _ ∈ [] => by apply elem_of_nil in H
         | _ ∈ _ :: _ => apply elem_of_cons in H as [H|H]; [simplify_eq|]
         end.

Section Claims.
Context {C : Collaborators}.
Variables (sig : signal) (fs f_range center_extrema find_extrema_kwargs : value).
Variable hilbert_increase_n : bool.

Local Abbreviation shape_result :=
  (compute_shape_features sig fs f_range center_extrema find_extrema_kwargs
     hilbert_increase_n).
Local Abbreviation ev_shape :=
  (EvShape sig fs f_range center_extrema find_extrema_kwargs hilbert_increase_n).
Local Abbreviation features m l rs :=
  (compute_features sig fs f_range center_extrema m l find_extrema_kwargs
     hilbert_increase_n rs).

(** Splits a run into the paths of the section above and rewrites the
    run accordingly. *)
Ltac paths m l h :=
  let Hs := fresh "Hs" in
  let Hm := fresh "Hm" in
  let Hl := fresh "Hl" in
  destruct shape_result as [[? ?]|?] eqn:Hs;
  [ destruct (py_eq_str m "amplitude") eqn:Hm;
    [ destruct (h !!! l) eqn:Hl;
      [ rewrite !(run_amplitude_not_dict sig fs f_range center_extrema
                    find_extrema_kwargs hilbert_increase_n m l _ h _ _ Hm Hs)
          by (by rewrite Hl) ..
      | rewrite !(run_amplitude_dict sig fs f_range center_extrema
                    find_extrema_kwargs hilbert_increase_n m l _ h _ _ _ Hm Hs Hl) ]
    | rewrite !(run_not_amplitude sig fs f_range center_extrema
                  find_extrema_kwargs hilbert_increase_n m l _ h _ _ Hm Hs) ]
  | rewrite !(run_shape_fails sig fs f_range center_extrema
                find_extrema_kwargs hilbert_increase_n m l _ h _ Hs) ];
  cbn zeta.

(** Case analysis on what the collaborators and the concatenation
    answer. *)
Ltac outcomes :=
  repeat match goal with
         | |- context [compute_burst_features ?a ?b ?c ?d] =>
             destruct (compute_burst_features a b c d) eqn:?
         | |- context [pd_concat ?a ?b] =>
             destruct (pd_concat a b) eqn:?
         | |- context [py_eq_str ?m "cycles"] =>
             destruct (py_eq_str m "cycles") eqn:?
         | |- context [detect_bursts_cycles ?a ?b] =>
             destruct (detect_bursts_cycles a b) eqn:?
         | |- context [detect_bursts_df_amp ?a ?b] =>
             destruct (detect_bursts_df_amp a b) eqn:?
         end.




(** C1 (as the code has it).  A method other than ['cycles'] and
    ['amplitude'] never yields a result, leaves the caller's objects as they
    were and reaches no classifier; but the method is only examined at the
    classifier dispatch: when shape extraction, burst-metric computation
    (without a dual-threshold configuration) and concatenation succeed,
    all three have run before the [ValueError] is raised. *)
Theorem compute_features_invalid_method m l rs h :
  py_eq_str m "cycles" = false →
  py_eq_str m "amplitude" = false →
  let o := compute_features sig fs f_range center_extrema m l
             find_extrema_kwargs hilbert_increase_n rs h in
  (∃ e, res o = Raise e) ∧
  final o = h ∧
  (∀ ev, ev ∈ log o → is_classifier_call ev = false) ∧
  (∀ sf smp bf merged,
      shape_result = Ok (sf, smp) →
      compute_burst_features sf smp sig None = Ok bf →
      pd_concat sf bf = Ok merged →
      res o = Raise (ValueError invalid_method_message) ∧
      log o = [ev_shape; EvBurst sf smp sig None; EvConcat sf bf]).
Proof.
  intros Hc Ha o. subst o.
  destruct shape_result as [[sf smp]|e] eqn:Hs.
  - rewrite (run_not_amplitude _ _ _ _ _ _ _ _ _ _ _ _ Ha Hs), Hc.
    destruct (compute_burst_features sf smp sig None) as [bf|e] eqn:Hb;
      [destruct (pd_concat sf bf) as [merged|e] eqn:Hp|]; simpl;
      (split; [eauto|]); (split; [done|]);
      (split; [intros ev Hev; by in_log Hev|]);
      intros sf' smp' bf' merged' ? ? ?; simplify_eq; try split; congruence.
  - rewrite (run_shape_fails _ _ _ _ _ _ _ _ _ _ _ Hs). simpl.
    split; [eauto|]. split; [done|].
    split; [intros ev Hev; by in_log Hev|]. intros; simplify_eq.
Qed.

(** C2 (the failing input).  In amplitude mode with
    [burst_detection_kwargs] left at its default [None], the call stops at
    the first [pop] with an [AttributeError]: shape extraction is the only
    work done and the Burst Metric Computer is never reached. *)
Theorem compute_features_amplitude_without_kwargs l rs h sf smp :
  shape_result = Ok (sf, smp) →
  h !!! l = VNone →
  compute_features sig fs f_range center_extrema (VStr "amplitude") l
    find_extrema_kwargs hilbert_increase_n rs h =
  Outcome (Raise (AttributeError "object has no attribute 'pop'")) h [ev_shape].
Proof.
  intros Hs Hl.
  rewrite (run_amplitude_not_dict _ _ _ _ _ _ (VStr "amplitude") l rs h sf smp
             eq_refl Hs) by (by rewrite Hl).
  by rewrite Hl.
Qed.

(** C3 (as the code has it).  In amplitude mode with a dictionary [d],
    the keywords handed to [detect_bursts_df_amp] are [d] without
    [amp_threshes] and [filter_kwargs]; [n_cycles_min] is read for the
    threshold configuration but not removed, so the classifier receives
    it whenever the caller gave it. *)
Theorem amplitude_classifier_kwargs l rs h d :
  h !!! l = VDict d →
  let o := compute_features sig fs f_range center_extrema (VStr "amplitude") l
             find_extrema_kwargs hilbert_increase_n rs h in
  (∀ df kw,
      EvDfAmp df kw ∈ log o →
      kw = remaining_kwargs d ∧
      kw !! "amp_threshes" = None ∧
      kw !! "filter_kwargs" = None ∧
      kw !! "n_cycles_min" = d !! "n_cycles_min") ∧
  (∀ sf smp bf merged,
      shape_result = Ok (sf, smp) →
      compute_burst_features sf smp sig
        (Some (dual_threshold_defaults fs f_range d)) = Ok bf →
      pd_concat sf bf = Ok merged →
      EvDfAmp merged (remaining_kwargs d) ∈ log o).
Proof.
  intros Hl o. subst o.
  assert (∀ kw, kw = remaining_kwargs d →
            kw = remaining_kwargs d ∧
            kw !! "amp_threshes" = None ∧
            kw !! "filter_kwargs" = None ∧
            kw !! "n_cycles_min" = d !! "n_cycles_min") as Hkw.
  { intros kw ->. by rewrite !remaining_kwargs_lookup. }
  destruct shape_result as [[sf smp]|e] eqn:Hs.
  - rewrite (run_amplitude_dict _ _ _ _ _ _ (VStr "amplitude") _ _ _ _ _ _ eq_refl Hs Hl).
    cbn zeta.
    destruct (compute_burst_features sf smp sig _) as [bf|e] eqn:Hb;
      [destruct (pd_concat sf bf) as [merged|e] eqn:Hp|]; simpl;
      (split; [intros df kw Hev; in_log Hev; by apply Hkw|]);
      intros sf' smp' bf' merged' ? ? ?; simplify_eq; try congruence.
    assert (bf' = bf) as -> by congruence.
    assert (merged' = merged) as -> by congruence.
    do 3 apply list_elem_of_further. apply list_elem_of_here.
  - rewrite (run_shape_fails _ _ _ _ _ _ _ _ _ _ _ Hs). simpl.
    split; [intros df kw Hev; in_log Hev|]. intros; simplify_eq.
Qed.

(** C4 (as the code has it).  The concatenation is [pd.concat] with its
    defaults and checks no column names: for two tables with the same
    index it succeeds with the columns of the first followed by those of
    the second, whether or not names are shared, and that merged table is
    the one a classifier receives. *)
Theorem concat_checks_no_column_names m l rs h a b :
  let o := compute_features sig fs f_range center_extrema m l
             find_extrema_kwargs hilbert_increase_n rs h in
  EvConcat a b ∈ log o →
  df_index a = df_index b →
  pd_concat a b = Ok (mkDataFrame (df_index a) (df_columns a ++ df_columns b)) ∧
  (∀ df kw,
      EvCycles df kw ∈ log o ∨ EvDfAmp df kw ∈ log o →
      df = mkDataFrame (df_index a) (df_columns a ++ df_columns b)).
Proof.
  intros o Hev Hidx. subst o.
  assert (pd_concat a b =
            Ok (mkDataFrame (df_index a) (df_columns a ++ df_columns b))) as Hcat.
  { unfold pd_concat. by rewrite decide_True. }
  split; [done|]. revert Hev.
  paths m l h; repeat case_match; simpl;
    intros Hev; in_log Hev; intros df kw [Hc|Hc]; in_log Hc; congruence.
Qed.

(** The caller's store after a call, on every path. *)
Lemma final_store m l rs h :
  final (features m l rs h) =
    match h !!! l with
    | VDict d =>
        if py_eq_str m "amplitude" && is_ok shape_result
        then <[l := VDict (remaining_kwargs d)]> h
        else h
    | _ => h
    end.
Proof.
  paths m l h; simpl; rewrite ?andb_false_r, ?andb_true_r;
    repeat case_match; simplify_eq; done.
Qed.

(** C5 (as the code has it).  A call leaves every object of the caller as
    it was, except that in amplitude mode, once shape extraction has
    succeeded, a dictionary passed as [burst_detection_kwargs] loses its
    [amp_threshes] and [filter_kwargs] entries; its other entries, and all
    other objects, are untouched.  In every other mode, and for a
    dictionary holding neither key, nothing changes. *)
Theorem caller_objects_after_call m l rs h :
  let o := compute_features sig fs f_range center_extrema m l
             find_extrema_kwargs hilbert_increase_n rs h in
  final o =
    match h !!! l with
    | VDict d =>
        if py_eq_str m "amplitude" && is_ok shape_result
        then <[l := VDict (remaining_kwargs d)]> h
        else h
    | _ => h
    end ∧
  (py_eq_str m "amplitude" = false → final o = h) ∧
  (∀ l', l' ≠ l → final o !! l' = h !! l') ∧
  (∀ d, h !!! l = VDict d →
        d !! "amp_threshes" = None → d !! "filter_kwargs" = None →
        final o = h).
Proof.
  intros o. subst o.
  split; [apply final_store|]. rewrite final_store.
  split; [|split].
  - intros ->. by destruct (h !!! l).
  - intros l' Hne. destruct (h !!! l); try done.
    case_match; [|done]. by rewrite lookup_insert_ne.
  - intros d Hl Ha Hf. rewrite Hl. cbn beta iota. case_match; [|done].
    unfold remaining_kwargs.
    rewrite (delete_id d "amp_threshes"), (delete_id d "filter_kwargs") by done.
    apply insert_id. by apply lookup_total_dict.
Qed.

(** C6.  [return_samples] changes the returned structure only: with the
    flag set the call returns the pair of the feature table and the
    cyclepoints table of the shape extractor, without it the same feature
    table alone; errors, the calls made and the effect on the caller's
    objects are the same. *)
Theorem return_samples_changes_structure_only m l h :
  let with_samples := compute_features sig fs f_range center_extrema m l
             find_extrema_kwargs hilbert_increase_n true h in
  let without := compute_features sig fs f_range center_extrema m l
             find_extrema_kwargs hilbert_increase_n false h in
  final without = final with_samples ∧
  log without = log with_samples ∧
  match res with_samples with
  | Ok (RetPair df smp) =>
      res without = Ok (RetTable df) ∧ ∃ sf, shape_result = Ok (sf, smp)
  | Ok (RetTable _) => False
  | Raise e => res without = Raise e
  end.
Proof.
  intros with_samples without. subst with_samples without.
  paths m l h; outcomes; simpl; eauto 6.
Qed.

(** Aligned concatenation, row by row. *)
Lemma pd_concat_same_index a b merged :
  df_index b = df_index a →
  pd_concat a b = Ok merged →
  df_index merged = df_index a ∧
  df_columns merged = df_columns a ++ df_columns b ∧
  ∀ i, row merged i = row a i ++ row b i.
Proof.
  intros Hidx. unfold pd_concat. rewrite decide_True by done.
  intros [= <-]. simpl. split; [done|]. split; [done|].
  intros i. unfold row. simpl. apply map_app.
Qed.

Lemma appended_column_rows (df out : DataFrame) (flags : list cell) :
  df_columns out = df_columns df ++ [("is_burst"%string, flags)] →
  ∀ i, row out i = row df i ++ [flags !! i].
Proof.
  intros Hcols i. unfold row. rewrite Hcols. apply map_app.
Qed.

(** C7.  When the Burst Metric Computer yields one row per cycle of the
    shape-feature table and the classifiers append [is_burst], every call
    that returns has a shape-feature table, a burst-metric table, a merged
    table and a returned feature table with the same row labels, hence the
    same number of rows, and row [i] of the merged table is row [i] of
    the shape features followed by row [i] of the burst metrics, to which
    the returned table adds the cycle's [is_burst] flag. *)
Theorem tables_have_the_same_rows m l rs h r :
  burst_metrics_per_cycle C →
  classifiers_append_is_burst C →
  let o := compute_features sig fs f_range center_extrema m l
             find_extrema_kwargs hilbert_increase_n rs h in
  res o = Ok r →
  ∃ sf smp dual bf merged (flags : list cell),
    shape_result = Ok (sf, smp) ∧
    compute_burst_features sf smp sig dual = Ok bf ∧
    pd_concat sf bf = Ok merged ∧
    EvConcat sf bf ∈ log o ∧
    df_index bf = df_index sf ∧
    df_index merged = df_index sf ∧
    df_index (table_of r) = df_index sf ∧
    n_rows sf = n_rows bf ∧
    n_rows bf = n_rows merged ∧
    n_rows merged = n_rows (table_of r) ∧
    (∀ i, row merged i = row sf i ++ row bf i) ∧
    (∀ i, row (table_of r) i = row merged i ++ [flags !! i]).
Proof.
  intros Hburst [Hcyc Hamp] o. subst o.
  assert (∀ sf smp dual bf merged out (flags : list cell),
            shape_result = Ok (sf, smp) →
            compute_burst_features sf smp sig dual = Ok bf →
            pd_concat sf bf = Ok merged →
            EvConcat sf bf ∈ log (features m l rs h) →
            df_index out = df_index merged →
            df_columns out = df_columns merged ++ [("is_burst"%string, flags)] →
            table_of r = out →
            ∃ sf smp dual bf merged (flags : list cell),
              shape_result = Ok (sf, smp) ∧
              compute_burst_features sf smp sig dual = Ok bf ∧
              pd_concat sf bf = Ok merged ∧
              EvConcat sf bf ∈ log (features m l rs h) ∧
              df_index bf = df_index sf ∧
              df_index merged = df_index sf ∧
              df_index (table_of r) = df_index sf ∧
              n_rows sf = n_rows bf ∧
              n_rows bf = n_rows merged ∧
              n_rows merged = n_rows (table_of r) ∧
              (∀ i, row merged i = row sf i ++ row bf i) ∧
              (∀ i, row (table_of r) i = row merged i ++ [flags !! i])) as Hall.
  { intros sf smp dual bf merged out flags Hs Hb Hp Hev Hio Hco Hr.
    pose proof (Hburst _ _ _ _ _ Hb) as Hib.
    destruct (pd_concat_same_index _ _ _ Hib Hp) as (Him & _ & Hrows).
    exists sf, smp, dual, bf, merged, flags. unfold n_rows.
    rewrite Hr, Hio, Him, Hib.
    repeat split; try done.
    subst out. by apply appended_column_rows. }
  revert Hall.
  paths m l h; outcomes; simpl; intros Hall Hr; simplify_eq.
  - match goal with
    | Hc : detect_bursts_df_amp _ _ = Ok ?out |- _ =>
        destruct (Hamp _ _ _ Hc) as (Hio & flags & Hco);
        eapply (Hall _ _ _ _ _ out flags); eauto;
        [ do 2 apply list_elem_of_further; apply list_elem_of_here
        | by destruct rs ]
    end.
  - match goal with
    | Hc : detect_bursts_cycles _ _ = Ok ?out |- _ =>
        destruct (Hcyc _ _ _ Hc) as (Hio & flags & Hco);
        eapply (Hall _ _ _ _ _ out flags); eauto;
        [ do 2 apply list_elem_of_further; apply list_elem_of_here
        | by destruct rs ]
    end.
Qed.

(** Outside amplitude mode only the entries of the keyword object
    matter. *)
Lemma run_by_entries m rs (h1 h2 : store) (l1 l2 : loc) :
  py_eq_str m "amplitude" = false →
  entries_or_empty (h1 !!! l1) = entries_or_empty (h2 !!! l2) →
  res (features m l1 rs h1) = res (features m l2 rs h2) ∧
  log (features m l1 rs h1) = log (features m l2 rs h2).
Proof.
  intros Hm Heq.
  destruct shape_result as [[sf smp]|e] eqn:Hs.
  - rewrite (run_not_amplitude _ _ _ _ _ _ m l1 rs h1 _ _ Hm Hs).
    rewrite (run_not_amplitude _ _ _ _ _ _ m l2 rs h2 _ _ Hm Hs).
    rewrite Heq. by outcomes.
  - by rewrite !(run_shape_fails _ _ _ _ _ _ m _ rs _ _ Hs).
Qed.

(** C8 (as the code has it).  A call repeated with the same arguments and
    the same objects, the second one running on what the first has left,
    gives the same result, makes the same calls and leaves the same store
    whenever the method is not ['amplitude'], and in amplitude mode whenever
    the dictionary holds neither [amp_threshes] nor [filter_kwargs]: in both
    cases the first call has changed nothing.  In amplitude mode with a
    dictionary in general, the first call computes the burst metrics with
    the configuration resolved from the dictionary and the second with the
    one resolved from what is left of it, the caller's [amp_threshes] and
    [filter_kwargs] replaced by the defaults. *)
Theorem repeated_call_on_the_same_objects m l rs h :
  let first := compute_features sig fs f_range center_extrema m l
                 find_extrema_kwargs hilbert_increase_n rs h in
  let second := compute_features sig fs f_range center_extrema m l
                  find_extrema_kwargs hilbert_increase_n rs (final first) in
  (py_eq_str m "amplitude" = false →
     final first = h ∧
     res second = res first ∧ log second = log first ∧
     final second = final first) ∧
  (∀ d, py_eq_str m "amplitude" = true →
        h !!! l = VDict d →
        d !! "amp_threshes" = None → d !! "filter_kwargs" = None →
     final first = h ∧
     res second = res first ∧ log second = log first ∧
     final second = final first) ∧
  (∀ d sf smp,
      py_eq_str m "amplitude" = true →
      h !!! l = VDict d →
      shape_result = Ok (sf, smp) →
      EvBurst sf smp sig (Some (dual_threshold_defaults fs f_range d))
        ∈ log first ∧
      EvBurst sf smp sig
        (Some (dual_threshold_defaults fs f_range (remaining_kwargs d)))
        ∈ log second).
Proof.
  intros first second. subst first second.
  split; [|split].
  - intros Hm.
    assert (final (features m l rs h) = h) as Hfinal.
    { rewrite final_store, Hm. by destruct (h !!! l). }
    by rewrite !Hfinal.
  - intros d Hm Hl Ha Hf.
    assert (final (features m l rs h) = h) as Hfinal.
    { rewrite final_store, Hl, Hm. cbn beta iota.
      destruct (is_ok shape_result); [|done]. simpl.
      unfold remaining_kwargs.
      rewrite (delete_id d "amp_threshes"), (delete_id d "filter_kwargs") by done.
      apply insert_id. by apply lookup_total_dict. }
    by rewrite !Hfinal.
  - intros d sf smp Hm Hl Hs. split.
    + rewrite (run_amplitude_dict _ _ _ _ _ _ m l rs h _ _ d Hm Hs Hl).
      cbn zeta. outcomes; simpl;
        apply list_elem_of_further, list_elem_of_here.
    + rewrite final_store, Hl, Hm, Hs. simpl.
      assert (<[l := VDict (remaining_kwargs d)]> h !!! l =
                VDict (remaining_kwargs d)) as Hl'
        by apply lookup_total_insert_eq.
      rewrite (run_amplitude_dict _ _ _ _ _ _ m l rs _ _ _ _ Hm Hs Hl').
      cbn zeta. outcomes; simpl;
        apply list_elem_of_further, list_elem_of_here.
Qed.


(** C10.  In cycles mode a [burst_detection_kwargs] that is no dictionary
    ([None] included) is replaced by an empty configuration: the only
    classifier call is [detect_bursts_cycles] with no keywords, the call
    behaves exactly as it does for an empty dictionary, and the caller's
    objects are left as they were; the value itself raises nothing. *)
Theorem cycles_kwargs_not_a_dict l rs h :
  isinstance_dict (h !!! l) = false →
  let o := compute_features sig fs f_range center_extrema (VStr "cycles") l
             find_extrema_kwargs hilbert_increase_n rs h in
  let o_empty := compute_features sig fs f_range center_extrema (VStr "cycles") l
             find_extrema_kwargs hilbert_increase_n rs (<[l := VDict ∅]> h) in
  final o = h ∧
  (∀ ev, ev ∈ log o → is_classifier_call ev = true → ∃ df, ev = EvCycles df ∅) ∧
  (∀ sf smp bf merged,
      shape_result = Ok (sf, smp) →
      compute_burst_features sf smp sig None = Ok bf →
      pd_concat sf bf = Ok merged →
      res o = result_map (returned rs smp) (detect_bursts_cycles merged ∅) ∧
      log o = [ev_shape; EvBurst sf smp sig None; EvConcat sf bf;
               EvCycles merged ∅]) ∧
  res o = res o_empty ∧
  log o = log o_empty.
Proof.
  intros Hnd o o_empty. subst o o_empty.
  assert (entries_or_empty (h !!! l) = ∅) as Hempty.
  { by destruct (h !!! l). }
  split.
  { rewrite final_store. by destruct (h !!! l). }
  assert (res (features (VStr "cycles") l rs h) =
            res (features (VStr "cycles") l rs (<[l := VDict ∅]> h)) ∧
          log (features (VStr "cycles") l rs h) =
            log (features (VStr "cycles") l rs (<[l := VDict ∅]> h))) as Hsame.
  { apply run_by_entries; [done|].
    by rewrite lookup_total_insert_eq, Hempty. }
  destruct shape_result as [[sf smp]|e] eqn:Hs.
  - rewrite (run_not_amplitude _ _ _ _ _ _ (VStr "cycles") l rs h _ _ eq_refl Hs)
      in *.
    rewrite Hempty in *. change (py_eq_str (VStr "cycles") "cycles") with true in *.
    cbn iota in *.
    split; [|split; [|done]].
    + outcomes; simpl; intros ev Hev Hcl; in_log Hev; eauto;
        discriminate.
    + intros sf' smp' bf' merged' ? Hb Hp. simplify_eq. by rewrite Hb, Hp.
  - rewrite (run_shape_fails _ _ _ _ _ _ (VStr "cycles") l rs h _ Hs) in *.
    split; [|split; [|done]].
    + simpl. intros ev Hev Hcl; in_log Hev; discriminate.
    + intros; simplify_eq.
Qed.

(* --------------------------------------------------------------------- *)
(** *** Further properties of the orchestrator *)
(* --------------------------------------------------------------------- *)

Lemma dual_threshold_defaults_dom fs' f_range' (d : pydict) :
  dom (dual_threshold_defaults fs' f_range' d) =
    ({[ "fs"; "f_range"; "amp_threshes"; "filter_kwargs"; "n_cycles_min" ]}
       : gset string)%string.
Proof.
  unfold dual_threshold_defaults.
  rewrite !dom_insert_L, dom_empty_L. set_solver.
Qed.

Lemma remaining_kwargs_idemp (d : pydict) :
  remaining_kwargs (remaining_kwargs d) = remaining_kwargs d.
Proof.
  apply map_eq. intros k. rewrite !remaining_kwargs_lookup.
  by case_decide.
Qed.

(** X1.  In amplitude mode with a dictionary, the configuration handed to
    the Burst Metric Computer has exactly the keys [fs], [f_range],
    [amp_threshes], [filter_kwargs] and [n_cycles_min]: [fs] and [f_range]
    are the arguments of the call (an entry of these names in the
    dictionary does not replace them), and each of the other three is the
    caller's entry when there is one and [(1, 2)], [None], [3] otherwise.
    The Burst Metric Computer is called with it as soon as shape extraction
    succeeds. *)
Theorem dual_threshold_configuration l rs h d :
  h !!! l = VDict d →
  let o := compute_features sig fs f_range center_extrema (VStr "amplitude") l
             find_extrema_kwargs hilbert_increase_n rs h in
  (∀ sf smp s dual,
      EvBurst sf smp s dual ∈ log o →
      ∃ cfg : pydict,
        dual = Some cfg ∧
        dom cfg =
          ({[ "fs"; "f_range"; "amp_threshes"; "filter_kwargs";
              "n_cycles_min" ]} : gset string)%string ∧
        cfg !! "fs" = Some fs ∧
        cfg !! "f_range" = Some f_range ∧
        cfg !! "amp_threshes" =
          Some (default (VTuple [VInt 1; VInt 2]) (d !! "amp_threshes")) ∧
        cfg !! "filter_kwargs" = Some (default VNone (d !! "filter_kwargs")) ∧
        cfg !! "n_cycles_min" = Some (default (VInt 3) (d !! "n_cycles_min"))) ∧
  (∀ sf smp,
      shape_result = Ok (sf, smp) →
      ∃ cfg, EvBurst sf smp sig (Some cfg) ∈ log o).
Proof.
  intros Hl o. subst o.
  assert (∀ dual, dual = Some (dual_threshold_defaults fs f_range d) →
            ∃ cfg : pydict,
              dual = Some cfg ∧
              dom cfg =
                ({[ "fs"; "f_range"; "amp_threshes"; "filter_kwargs";
                    "n_cycles_min" ]} : gset string)%string ∧
              cfg !! "fs" = Some fs ∧
              cfg !! "f_range" = Some f_range ∧
              cfg !! "amp_threshes" =
                Some (default (VTuple [VInt 1; VInt 2]) (d !! "amp_threshes")) ∧
              cfg !! "filter_kwargs" =
                Some (default VNone (d !! "filter_kwargs")) ∧
              cfg !! "n_cycles_min" =
                Some (default (VInt 3) (d !! "n_cycles_min"))) as Hcfg.
  { intros dual ->. eexists. split; [done|].
    split; [apply dual_threshold_defaults_dom|].
    unfold dual_threshold_defaults. by simplify_map_eq. }
  destruct shape_result as [[sf smp]|e] eqn:Hs.
  - rewrite (run_amplitude_dict _ _ _ _ _ _ (VStr "amplitude") _ _ _ _ _ _
               eq_refl Hs Hl).
    cbn zeta. outcomes; simpl;
      (split; [intros ? ? ? ? Hev; in_log Hev; by apply Hcfg|]);
      intros sf' smp' [= <- <-]; eexists;
      apply list_elem_of_further, list_elem_of_here.
  - rewrite (run_shape_fails _ _ _ _ _ _ _ _ _ _ _ Hs). simpl.
    split; [intros ? ? ? ? Hev; in_log Hev|]. intros; simplify_eq.
Qed.

(** X2.  When the method is not ['amplitude'], or
    [burst_detection_kwargs] is a dictionary (with strings as keys), the one
    error [compute_features] raises itself is the [ValueError] for an
    unknown method; every other error it ends in is the error of the step
    that failed (shape extraction, burst metrics, concatenation or
    classifier), passed on unchanged, and that step is the last call
    made. *)
Theorem errors_come_from_the_failing_step m l rs h e :
  py_eq_str m "amplitude" = false ∨ isinstance_dict (h !!! l) = true →
  let o := compute_features sig fs f_range center_extrema m l
             find_extrema_kwargs hilbert_increase_n rs h in
  res o = Raise e →
  (shape_result = Raise e ∧ log o = [ev_shape]) ∨
  (∃ sf smp dual,
      last (log o) = Some (EvBurst sf smp sig dual) ∧
      compute_burst_features sf smp sig dual = Raise e) ∨
  (∃ sf bf,
      last (log o) = Some (EvConcat sf bf) ∧ pd_concat sf bf = Raise e) ∨
  (py_eq_str m "cycles" = false ∧ py_eq_str m "amplitude" = false ∧
   e = ValueError invalid_method_message) ∨
  (∃ df kw,
      last (log o) = Some (EvCycles df kw) ∧
      detect_bursts_cycles df kw = Raise e) ∨
  (∃ df kw,
      last (log o) = Some (EvDfAmp df kw) ∧
      detect_bursts_df_amp df kw = Raise e).
Proof.
  intros Hpre o. subst o.
  paths m l h; outcomes; simpl; intros Hr; simplify_eq.
  all: try (destruct Hpre as [Hpre|Hpre]; simpl in Hpre; discriminate Hpre).
  all: try (left; by eauto).
  all: try (right; left; by eauto).
  all: try (do 2 right; left; by eauto).
  all: try (do 3 right; left; by eauto).
  all: try (do 4 right; left; by eauto).
  all: try (do 5 right; by eauto).
Qed.

(** X3.  In cycles mode the call returns exactly when shape extraction,
    burst-metric computation without a dual-threshold configuration,
    concatenation and [detect_bursts_cycles] all succeed, whatever
    [burst_detection_kwargs] is; the value returned is the classifier's
    table, paired with the cyclepoints of the shape extractor when
    [return_samples] is set. *)
Theorem cycles_call_returns l rs h r :
  let o := compute_features sig fs f_range center_extrema (VStr "cycles") l
             find_extrema_kwargs hilbert_increase_n rs h in
  res o = Ok r ↔
  ∃ sf smp bf merged out,
    shape_result = Ok (sf, smp) ∧
    compute_burst_features sf smp sig None = Ok bf ∧
    pd_concat sf bf = Ok merged ∧
    detect_bursts_cycles merged (entries_or_empty (h !!! l)) = Ok out ∧
    r = returned rs smp out.
Proof.
  intros o. subst o.
  destruct shape_result as [[sf smp]|e] eqn:Hs.
  - rewrite (run_not_amplitude _ _ _ _ _ _ (VStr "cycles") _ _ _ _ _ eq_refl Hs).
    change (py_eq_str (VStr "cycles") "cycles") with true. cbn iota.
    destruct (compute_burst_features sf smp sig None) as [bf|e] eqn:Hb;
      [destruct (pd_concat sf bf) as [merged|e] eqn:Hp;
       [destruct (detect_bursts_cycles merged _) as [out|e] eqn:Hc|]|];
      simpl; (split; [intros Hr|intros (?&?&?&?&?&?&?&?&?&?)]);
      simplify_eq; eauto 10; congruence.
  - rewrite (run_shape_fails _ _ _ _ _ _ _ _ _ _ _ Hs). simpl.
    split; [done|]. intros (?&?&?&?&?&?&_); simplify_eq.
Qed.

(** X4.  In amplitude mode with a dictionary as [burst_detection_kwargs],
    the call returns exactly when shape extraction, burst-metric
    computation with the configuration resolved from the dictionary,
    concatenation and [detect_bursts_df_amp] on the remaining keywords all
    succeed; the value returned is the classifier's table, paired with the
    cyclepoints of the shape extractor when [return_samples] is set. *)
Theorem amplitude_call_returns l rs h d r :
  h !!! l = VDict d →
  let o := compute_features sig fs f_range center_extrema (VStr "amplitude") l
             find_extrema_kwargs hilbert_increase_n rs h in
  res o = Ok r ↔
  ∃ sf smp bf merged out,
    shape_result = Ok (sf, smp) ∧
    compute_burst_features sf smp sig
      (Some (dual_threshold_defaults fs f_range d)) = Ok bf ∧
    pd_concat sf bf = Ok merged ∧
    detect_bursts_df_amp merged (remaining_kwargs d) = Ok out ∧
    r = returned rs smp out.
Proof.
  intros Hl o. subst o.
  destruct shape_result as [[sf smp]|e] eqn:Hs.
  - rewrite (run_amplitude_dict _ _ _ _ _ _ (VStr "amplitude") _ _ _ _ _ _
               eq_refl Hs Hl).
    cbn zeta.
    destruct (compute_burst_features sf smp sig _) as [bf|e] eqn:Hb;
      [destruct (pd_concat sf bf) as [merged|e] eqn:Hp;
       [destruct (detect_bursts_df_amp merged _) as [out|e] eqn:Hc|]|];
      simpl; (split; [intros Hr|intros (?&?&?&?&?&?&?&?&?&?)]);
      simplify_eq; eauto 10; congruence.
  - rewrite (run_shape_fails _ _ _ _ _ _ _ _ _ _ _ Hs). simpl.
    split; [done|]. intros (?&?&?&?&?&?&_); simplify_eq.
Qed.

(** X5.  Every call asks its collaborators in one fixed order and each at
    most once: shape extraction with the caller's arguments, then the Burst
    Metric Computer on the two tables of the shape extractor and the same
    signal, then the concatenation of the shape table with the burst table,
    then one classifier on the concatenated table; the call stops at any
    point of this sequence and never goes back. *)
Theorem collaborators_called_once_in_order m l rs h :
  let o := compute_features sig fs f_range center_extrema m l
             find_extrema_kwargs hilbert_increase_n rs h in
  log o = [ev_shape] ∨
  ∃ sf smp dual,
    shape_result = Ok (sf, smp) ∧
    (log o = [ev_shape; EvBurst sf smp sig dual] ∨
     ∃ bf,
       compute_burst_features sf smp sig dual = Ok bf ∧
       (log o = [ev_shape; EvBurst sf smp sig dual; EvConcat sf bf] ∨
        ∃ merged kw,
          pd_concat sf bf = Ok merged ∧
          (log o = [ev_shape; EvBurst sf smp sig dual; EvConcat sf bf;
                    EvCycles merged kw] ∨
           log o = [ev_shape; EvBurst sf smp sig dual; EvConcat sf bf;
                    EvDfAmp merged kw]))).
Proof.
  intros o. subst o.
  paths m l h; outcomes; simpl; eauto 15.
Qed.

(** X6.  A second call in amplitude mode on the same dictionary object
    finds it without [amp_threshes] and [filter_kwargs]: whatever the caller
    had put there, the Burst Metric Computer now gets the defaults [(1, 2)]
    and [None] (and the same [n_cycles_min] as before), and the second call
    changes nothing more in the caller's objects. *)
Theorem repeated_amplitude_call l rs rs' h d :
  h !!! l = VDict d →
  let first := compute_features sig fs f_range center_extrema (VStr "amplitude") l
             find_extrema_kwargs hilbert_increase_n rs h in
  let second := compute_features sig fs f_range center_extrema (VStr "amplitude") l
             find_extrema_kwargs hilbert_increase_n rs' (final first) in
  final second = final first ∧
  (∀ sf smp s dual,
      EvBurst sf smp s dual ∈ log second →
      ∃ cfg : pydict,
        dual = Some cfg ∧
        cfg !! "amp_threshes" = Some (VTuple [VInt 1; VInt 2]) ∧
        cfg !! "filter_kwargs" = Some VNone ∧
        cfg !! "n_cycles_min" = Some (default (VInt 3) (d !! "n_cycles_min"))) ∧
  (∀ sf smp,
      shape_result = Ok (sf, smp) →
      ∃ cfg, EvBurst sf smp sig (Some cfg) ∈ log second).
Proof.
  intros Hl first second. subst first second.
  destruct shape_result as [[sf smp]|e] eqn:Hs.
  - rewrite (final_store (VStr "amplitude") l rs h), Hl, Hs. simpl.
    assert (<[l := VDict (remaining_kwargs d)]> h !!! l =
              VDict (remaining_kwargs d)) as Hl'
      by apply lookup_total_insert_eq.
    rewrite (run_amplitude_dict _ _ _ _ _ _ (VStr "amplitude") _ _ _ _ _ _
               eq_refl Hs Hl').
    cbn zeta. rewrite remaining_kwargs_idemp, insert_insert_eq.
    assert (∀ dual,
              dual = Some (dual_threshold_defaults fs f_range (remaining_kwargs d)) →
              ∃ cfg : pydict,
                dual = Some cfg ∧
                cfg !! "amp_threshes" = Some (VTuple [VInt 1; VInt 2]) ∧
                cfg !! "filter_kwargs" = Some VNone ∧
                cfg !! "n_cycles_min" =
                  Some (default (VInt 3) (d !! "n_cycles_min"))) as Hcfg.
    { intros dual ->. eexists. split; [done|].
      unfold dual_threshold_defaults.
      rewrite !remaining_kwargs_lookup. by simplify_map_eq. }
    outcomes; simpl; (split; [done|]);
      (split; [intros ? ? ? ? Hev; in_log Hev; by apply Hcfg|]);
      intros sf' smp' [= <- <-]; eexists;
      apply list_elem_of_further, list_elem_of_here.
  - rewrite (final_store (VStr "amplitude") l rs h), Hl, Hs. simpl.
    rewrite (run_shape_fails _ _ _ _ _ _ _ _ _ _ _ Hs). simpl.
    split; [done|]. split; [intros ? ? ? ? Hev; in_log Hev|].
    intros; simplify_eq.
Qed.

End Claims.

(* ===================================================================== *)
(** ** The sample collaborators meet the contracts *)
(* ===================================================================== *)

Lemma sample_burst_per_cycle : burst_metrics_per_cycle Sample.collaborators.
Proof.
  intros sf smp sig dual bf. simpl. unfold Sample.burst.
  destruct dual as [cfg|]; [|by intros [= <-]].
  repeat case_match; try discriminate. by intros [= <-].
Qed.

Lemma sample_classify_appends accepted : appends_is_burst (Sample.classify accepted).
Proof.
  intros df kw out. unfold Sample.classify.
  case_decide; [|discriminate]. intros [= <-]. simpl. eauto.
Qed.

Lemma sample_classifiers : classifiers_append_is_burst Sample.collaborators.
Proof. split; apply sample_classify_appends. Qed.

(* ===================================================================== *)
(** ** The properties at concrete inputs *)
(* ===================================================================== *)

(** C1, as the specification words it, fails: with the method ['wavelet']
    the call has extracted shape features, computed burst metrics and
    concatenated the tables by the time it raises. *)
Lemma invalid_method_fails_after_the_work :
  log (Inputs.run Sample.collaborators "wavelet" 2 true Inputs.heap) =
    [EvShape Inputs.sig Inputs.fs Inputs.f_range (VStr "peak") VNone false;
     EvBurst Inputs.shape_table Inputs.samples_table Inputs.sig None;
     EvConcat Inputs.shape_table Inputs.consistency_table] ∧
  ¬ fails_before_any_work
      (Inputs.run Sample.collaborators "wavelet" 2 true Inputs.heap).
Proof.
  split; [by vm_compute|].
  intros [_ Hlog]. vm_compute in Hlog. discriminate.
Qed.

Lemma compute_features_invalid_method_witness :
  py_eq_str (VStr "wavelet") "cycles" = false ∧
  py_eq_str (VStr "wavelet") "amplitude" = false ∧
  res (Inputs.run Sample.collaborators "wavelet" 2 true Inputs.heap) =
    Raise (ValueError invalid_method_message) ∧
  final (Inputs.run Sample.collaborators "wavelet" 2 true Inputs.heap) =
    Inputs.heap.
Proof.
  split; [reflexivity|]. split; [reflexivity|].
  destruct (compute_features_invalid_method (C := Sample.collaborators)
              Inputs.sig Inputs.fs Inputs.f_range (VStr "peak") VNone false
              (VStr "wavelet") 2%positive true Inputs.heap eq_refl eq_refl)
    as (_ & Hfinal & _ & Hrun).
  split; [|exact Hfinal].
  apply (Hrun Inputs.shape_table Inputs.samples_table Inputs.consistency_table
           Inputs.consistency_merged); vm_compute; reflexivity.
Defined.

(** C2 at the failing input: amplitude mode, [burst_detection_kwargs] left
    at [None]. *)
Lemma compute_features_amplitude_without_kwargs_witness :
  compute_shape_features (Collaborators := Sample.collaborators)
    Inputs.sig Inputs.fs Inputs.f_range (VStr "peak") VNone false =
    Ok (Inputs.shape_table, Inputs.samples_table) ∧
  Inputs.heap !!! 1%positive = VNone ∧
  res (Inputs.run Sample.collaborators "amplitude" 1 false Inputs.heap) =
    Raise (AttributeError "object has no attribute 'pop'").
Proof.
  split; [vm_compute; reflexivity|]. split; [vm_compute; reflexivity|].
  unfold Inputs.run.
  rewrite (compute_features_amplitude_without_kwargs (C := Sample.collaborators)
             Inputs.sig Inputs.fs Inputs.f_range (VStr "peak") VNone false
             1%positive false Inputs.heap Inputs.shape_table Inputs.samples_table);
    [reflexivity | vm_compute; reflexivity | vm_compute; reflexivity].
Defined.

(** C3, as the specification words it, fails: [n_cycles_min] given by the
    caller reaches [detect_bursts_df_amp]. *)
Lemma n_cycles_min_reaches_the_classifier :
  df_amp_kwargs
    (log (Inputs.run Sample.collaborators "amplitude" 2 false Inputs.heap)) =
    [ {[ "n_cycles_min"%string := VInt 5 ]} ] ∧
  ¬ df_amp_kwargs_without
      ["amp_threshes"; "filter_kwargs"; "n_cycles_min"]%string
      (Inputs.run Sample.collaborators "amplitude" 2 false Inputs.heap).
Proof.
  assert (df_amp_kwargs
            (log (Inputs.run Sample.collaborators "amplitude" 2 false Inputs.heap)) =
            [ {[ "n_cycles_min"%string := VInt 5 ]} ]) as Hkw
    by (by vm_compute).
  split; [exact Hkw|].
  intros Hclaim.
  specialize (Hclaim {[ "n_cycles_min"%string := VInt 5 ]}).
  rewrite Hkw in Hclaim.
  specialize (Hclaim (list_elem_of_here _ _) "n_cycles_min"%string).
  assert ("n_cycles_min"%string ∈
            ["amp_threshes"; "filter_kwargs"; "n_cycles_min"]%string) as Hin.
  { do 2 apply list_elem_of_further. apply list_elem_of_here. }
  specialize (Hclaim Hin). vm_compute in Hclaim. discriminate.
Qed.

Lemma amplitude_classifier_kwargs_witness :
  Inputs.heap !!! 2%positive = VDict Inputs.kwargs ∧
  ∀ df kw,
    EvDfAmp df kw
      ∈ log (Inputs.run Sample.collaborators "amplitude" 2 false Inputs.heap) →
    kw !! "amp_threshes" = None ∧
    kw !! "filter_kwargs" = None ∧
    kw !! "n_cycles_min" = Some (VInt 5).
Proof.
  split; [vm_compute; reflexivity|].
  intros df kw Hev.
  destruct (amplitude_classifier_kwargs (C := Sample.collaborators)
              Inputs.sig Inputs.fs Inputs.f_range (VStr "peak") VNone false
              2%positive false Inputs.heap Inputs.kwargs eq_refl)
    as [Hkw _].
  destruct (Hkw df kw Hev) as (_ & Ha & Hf & Hn).
  split; [exact Ha|]. split; [exact Hf|].
  rewrite Hn. vm_compute. reflexivity.
Defined.

(** C4, as the specification words it, fails: the shape-feature table and
    a burst-metric table that both have a [volt_amp] column are
    concatenated without an error, and the call goes on to return a table
    that holds the name twice. *)
Lemma colliding_columns_are_concatenated :
  columns_collide Inputs.shape_table Inputs.clashing_table ∧
  pd_concat Inputs.shape_table Inputs.clashing_table =
    Ok (mkDataFrame [0; 1; 2; 3]%Z
          [("period"%string, [Num 1; Num 1; Num 1; Num 1]);
           ("volt_amp"%string, [Num 3; Num 2; Num 3; Num 0]);
           ("volt_amp"%string, [Num 1; Num 0; Num 1; Num 0])]) ∧
  EvConcat Inputs.shape_table Inputs.clashing_table
    ∈ log (Inputs.run Sample.colliding "amplitude" 2 false Inputs.heap) ∧
  result_map (λ r, column_names (table_of r))
    (res (Inputs.run Sample.colliding "amplitude" 2 false Inputs.heap)) =
    Ok ["period"; "volt_amp"; "volt_amp"; "is_burst"]%string.
Proof.
  split.
  { exists "volt_amp"%string. split; vm_compute.
    - apply list_elem_of_further, list_elem_of_here.
    - apply list_elem_of_here. }
  split; [by vm_compute|]. split; [|by vm_compute].
  vm_compute. do 2 apply list_elem_of_further. apply list_elem_of_here.
Qed.

Lemma concat_checks_no_column_names_witness :
  df_index Inputs.shape_table = df_index Inputs.clashing_table ∧
  pd_concat Inputs.shape_table Inputs.clashing_table =
    Ok (mkDataFrame (df_index Inputs.shape_table)
          (df_columns Inputs.shape_table ++ df_columns Inputs.clashing_table)).
Proof.
  split; [reflexivity|].
  refine (proj1 (concat_checks_no_column_names (C := Sample.colliding)
                   Inputs.sig Inputs.fs Inputs.f_range (VStr "peak") VNone false
                   (VStr "amplitude") 2%positive false Inputs.heap
                   Inputs.shape_table Inputs.clashing_table _ eq_refl)).
  vm_compute. do 2 apply list_elem_of_further. apply list_elem_of_here.
Defined.

(** C5, as the specification words it, fails: after a call in amplitude
    mode the caller's dictionary has lost [amp_threshes]. *)
Lemma amplitude_call_changes_the_callers_dictionary :
  Inputs.heap !! 2%positive =
    Some (VDict {[ "amp_threshes"%string := VTuple [VInt 0; VInt 3];
                   "n_cycles_min"%string := VInt 5 ]}) ∧
  final (Inputs.run Sample.collaborators "amplitude" 2 false Inputs.heap)
    !! 2%positive =
    Some (VDict {[ "n_cycles_min"%string := VInt 5 ]}) ∧
  final (Inputs.run Sample.collaborators "amplitude" 2 false Inputs.heap) ≠
    Inputs.heap.
Proof.
  split; [by vm_compute|]. split; [by vm_compute|].
  intros Heq.
  apply (f_equal (λ h : store, h !! 2%positive)) in Heq.
  vm_compute in Heq. discriminate.
Qed.

Lemma caller_objects_after_call_witness :
  final (Inputs.run Sample.collaborators "cycles" 2 false Inputs.heap) =
    Inputs.heap ∧
  final (Inputs.run Sample.collaborators "amplitude" 2 false Inputs.heap)
    !! 3%positive = Inputs.heap !! 3%positive ∧
  final (Inputs.run Sample.collaborators "amplitude" 3 false Inputs.heap) =
    Inputs.heap.
Proof.
  split; [|split].
  - apply (caller_objects_after_call (C := Sample.collaborators)
             Inputs.sig Inputs.fs Inputs.f_range (VStr "peak") VNone false
             (VStr "cycles") 2%positive false Inputs.heap).
    reflexivity.
  - apply (caller_objects_after_call (C := Sample.collaborators)
             Inputs.sig Inputs.fs Inputs.f_range (VStr "peak") VNone false
             (VStr "amplitude") 2%positive false Inputs.heap).
    discriminate.
  - destruct (caller_objects_after_call (C := Sample.collaborators)
                Inputs.sig Inputs.fs Inputs.f_range (VStr "peak") VNone false
                (VStr "amplitude") 3%positive false Inputs.heap)
      as (_ & _ & _ & Hsame).
    apply (Hsame ∅); vm_compute; reflexivity.
Defined.

(** C7 at a concrete call. *)
Lemma tables_have_the_same_rows_witness :
  burst_metrics_per_cycle Sample.collaborators ∧
  classifiers_append_is_burst Sample.collaborators ∧
  ∃ r sf bf merged,
    res (Inputs.run Sample.collaborators "cycles" 1 true Inputs.heap) = Ok r ∧
    pd_concat sf bf = Ok merged ∧
    n_rows sf = n_rows bf ∧
    n_rows bf = n_rows merged ∧
    n_rows merged = n_rows (table_of r).
Proof.
  split; [exact sample_burst_per_cycle|]. split; [exact sample_classifiers|].
  destruct (tables_have_the_same_rows (C := Sample.collaborators)
              Inputs.sig Inputs.fs Inputs.f_range (VStr "peak") VNone false
              (VStr "cycles") 1%positive true Inputs.heap _
              sample_burst_per_cycle sample_classifiers eq_refl)
    as (sf & smp & dual & bf & merged & flags & Hs & Hb & Hp & _ & _ & _ & _ &
        H1 & H2 & H3 & _).
  eexists _, sf, bf, merged.
  split; [reflexivity|]. split; [exact Hp|]. split; [exact H1|].
  split; [exact H2|exact H3].
Defined.

(** C8, as the specification words it, fails: a caller who passes the same
    arguments and the same dictionary object to a second call in amplitude
    mode gets another table; the first call has removed [amp_threshes], the
    second falls back to the default thresholds. *)
Lemma second_call_on_the_same_object :
  let first := Inputs.run Sample.collaborators "amplitude" 2 false Inputs.heap in
  let second :=
    Inputs.run Sample.collaborators "amplitude" 2 false (final first) in
  result_map (λ r, Sample.get_column "burst_fraction" (table_of r)) (res first) =
    Ok [Num 1; Num 0; Num 1; Num 0] ∧
  result_map (λ r, Sample.get_column "burst_fraction" (table_of r)) (res second) =
    Ok [Num 1; Num 1; Num 1; Num 0] ∧
  res second ≠ res first.
Proof.
  split; [by vm_compute|]. split; [by vm_compute|].
  intros Heq.
  apply (f_equal
           (result_map (λ r, Sample.get_column "burst_fraction" (table_of r))))
    in Heq.
  vm_compute in Heq. discriminate.
Qed.

(** C8 at concrete calls: a repeated call in cycles mode, and the two
    configurations of a repeated call in amplitude mode. *)
Lemma repeated_call_on_the_same_objects_witness :
  res (Inputs.run Sample.collaborators "cycles" 3 true
         (final (Inputs.run Sample.collaborators "cycles" 3 true Inputs.heap))) =
    res (Inputs.run Sample.collaborators "cycles" 3 true Inputs.heap) ∧
  is_ok (res (Inputs.run Sample.collaborators "cycles" 3 true Inputs.heap)) = true ∧
  EvBurst Inputs.shape_table Inputs.samples_table Inputs.sig
    (Some (dual_threshold_defaults Inputs.fs Inputs.f_range Inputs.kwargs))
    ∈ log (Inputs.run Sample.collaborators "amplitude" 2 false Inputs.heap) ∧
  EvBurst Inputs.shape_table Inputs.samples_table Inputs.sig
    (Some (dual_threshold_defaults Inputs.fs Inputs.f_range
             (remaining_kwargs Inputs.kwargs)))
    ∈ log (Inputs.run Sample.collaborators "amplitude" 2 false
             (final (Inputs.run Sample.collaborators "amplitude" 2 false
                       Inputs.heap))).
Proof.
  split; [|split; [vm_compute; reflexivity|]].
  - destruct (repeated_call_on_the_same_objects (C := Sample.collaborators)
                Inputs.sig Inputs.fs Inputs.f_range (VStr "peak") VNone false
                (VStr "cycles") 3%positive true Inputs.heap)
      as (Hsame & _ & _).
    destruct (Hsame eq_refl) as (_ & Hres & _). exact Hres.
  - destruct (repeated_call_on_the_same_objects (C := Sample.collaborators)
                Inputs.sig Inputs.fs Inputs.f_range (VStr "peak") VNone false
                (VStr "amplitude") 2%positive false Inputs.heap)
      as (_ & _ & Hamp).
    apply (Hamp Inputs.kwargs Inputs.shape_table Inputs.samples_table);
      vm_compute; reflexivity.
Defined.


(** C10 at a concrete call: cycles mode with the tuple [(1, 2)] passed as
    [burst_detection_kwargs]. *)
Lemma cycles_kwargs_not_a_dict_witness :
  isinstance_dict (Inputs.heap !!! 4%positive) = false ∧
  final (Inputs.run Sample.collaborators "cycles" 4 true Inputs.heap) =
    Inputs.heap ∧
  res (Inputs.run Sample.collaborators "cycles" 4 true Inputs.heap) =
    res (Inputs.run Sample.collaborators "cycles" 4 true
           (<[4%positive := VDict ∅]> Inputs.heap)) ∧
  is_ok (res (Inputs.run Sample.collaborators "cycles" 4 true Inputs.heap)) = true.
Proof.
  split; [vm_compute; reflexivity|].
  destruct (cycles_kwargs_not_a_dict (C := Sample.collaborators)
              Inputs.sig Inputs.fs Inputs.f_range (VStr "peak") VNone false
              4%positive true Inputs.heap)
    as (Hfinal & _ & Hrun & Hres & _).
  { vm_compute. reflexivity. }
  split; [exact Hfinal|]. split; [exact Hres|].
  unfold Inputs.run.
  destruct (Hrun Inputs.shape_table Inputs.samples_table Inputs.consistency_table
              Inputs.consistency_merged) as [-> _];
    vm_compute; reflexivity.
Defined.

(* ===================================================================== *)
(** ** The further properties at concrete inputs *)
(* ===================================================================== *)

(** X1 at a concrete call: the caller's thresholds [(0, 3)] and
    [n_cycles_min = 5] are used, [filter_kwargs] falls back to [None]. *)
Lemma dual_threshold_configuration_witness :
  Inputs.heap !!! 2%positive = VDict Inputs.kwargs ∧
  ∃ cfg : pydict,
    EvBurst Inputs.shape_table Inputs.samples_table Inputs.sig (Some cfg)
      ∈ log (Inputs.run Sample.collaborators "amplitude" 2 false Inputs.heap) ∧
    cfg !! "amp_threshes" = Some (VTuple [VInt 0; VInt 3]) ∧
    cfg !! "filter_kwargs" = Some VNone ∧
    cfg !! "n_cycles_min" = Some (VInt 5).
Proof.
  split; [vm_compute; reflexivity|].
  destruct (dual_threshold_configuration (C := Sample.collaborators)
              Inputs.sig Inputs.fs Inputs.f_range (VStr "peak") VNone false
              2%positive false Inputs.heap Inputs.kwargs eq_refl)
    as [Hall Hcalled].
  destruct (Hcalled Inputs.shape_table Inputs.samples_table) as [cfg Hev];
    [vm_compute; reflexivity|].
  destruct (Hall _ _ _ _ Hev) as (cfg' & Heq & _ & _ & _ & Ha & Hf & Hn).
  injection Heq as <-.
  exists cfg. split; [exact Hev|].
  rewrite Ha, Hf, Hn. repeat split; vm_compute; reflexivity.
Defined.

(** X2 at a concrete call: in cycles mode the sample classifier refuses the
    keyword [amp_threshes]; its [TypeError] is the error of the call. *)
Lemma errors_come_from_the_failing_step_witness :
  res (Inputs.run Sample.collaborators "cycles" 2 false Inputs.heap) =
    Raise (TypeError "got an unexpected keyword argument") ∧
  ∃ df kw,
    last (log (Inputs.run Sample.collaborators "cycles" 2 false Inputs.heap)) =
      Some (EvCycles df kw) ∧
    detect_bursts_cycles (Collaborators := Sample.collaborators) df kw =
      Raise (TypeError "got an unexpected keyword argument").
Proof.
  split; [vm_compute; reflexivity|].
  destruct (errors_come_from_the_failing_step (C := Sample.collaborators)
              Inputs.sig Inputs.fs Inputs.f_range (VStr "peak") VNone false
              (VStr "cycles") 2%positive false Inputs.heap
              (TypeError "got an unexpected keyword argument")
              (or_introl eq_refl))
    as [[H _]|[(?&?&?&H&_)|[(?&?&H&_)|[[H _]|[H|(?&?&H&_)]]]]];
    [vm_compute; reflexivity | try (vm_compute in H; discriminate) ..].
  exact H.
Defined.

(** X3 at a concrete call. *)
Lemma cycles_call_returns_witness :
  ∃ r sf smp bf merged out,
    res (Inputs.run Sample.collaborators "cycles" 1 true Inputs.heap) = Ok r ∧
    pd_concat sf bf = Ok merged ∧
    detect_bursts_cycles (Collaborators := Sample.collaborators) merged ∅ =
      Ok out ∧
    r = RetPair out smp.
Proof.
  eexists.
  destruct (proj1 (cycles_call_returns (C := Sample.collaborators)
                     Inputs.sig Inputs.fs Inputs.f_range (VStr "peak") VNone false
                     1%positive true Inputs.heap _) eq_refl)
    as (sf & smp & bf & merged & out & _ & _ & Hp & Hc & Hr).
  exists sf, smp, bf, merged, out.
  split; [reflexivity|]. split; [exact Hp|]. split; [exact Hc|exact Hr].
Defined.

(** X4 at a concrete call. *)
Lemma amplitude_call_returns_witness :
  Inputs.heap !!! 2%positive = VDict Inputs.kwargs ∧
  ∃ r sf bf merged out,
    res (Inputs.run Sample.collaborators "amplitude" 2 false Inputs.heap) = Ok r ∧
    pd_concat sf bf = Ok merged ∧
    detect_bursts_df_amp (Collaborators := Sample.collaborators) merged
      (remaining_kwargs Inputs.kwargs) = Ok out ∧
    r = RetTable out.
Proof.
  split; [vm_compute; reflexivity|].
  eexists.
  destruct (proj1 (amplitude_call_returns (C := Sample.collaborators)
                     Inputs.sig Inputs.fs Inputs.f_range (VStr "peak") VNone false
                     2%positive false Inputs.heap Inputs.kwargs _ eq_refl)
              eq_refl)
    as (sf & smp & bf & merged & out & _ & _ & Hp & Hc & Hr).
  exists sf, bf, merged, out.
  split; [reflexivity|]. split; [exact Hp|]. split; [exact Hc|exact Hr].
Defined.

(** X6 at a concrete pair of calls: the thresholds [(0, 3)] of the first
    call are gone at the second. *)
Lemma repeated_amplitude_call_witness :
  Inputs.heap !!! 2%positive = VDict Inputs.kwargs ∧
  ∃ cfg : pydict,
    EvBurst Inputs.shape_table Inputs.samples_table Inputs.sig (Some cfg)
      ∈ log (Inputs.run Sample.collaborators "amplitude" 2 false
               (final (Inputs.run Sample.collaborators "amplitude" 2 false
                         Inputs.heap))) ∧
    cfg !! "amp_threshes" = Some (VTuple [VInt 1; VInt 2]) ∧
    cfg !! "n_cycles_min" = Some (VInt 5).
Proof.
  split; [vm_compute; reflexivity|].
  destruct (repeated_amplitude_call (C := Sample.collaborators)
              Inputs.sig Inputs.fs Inputs.f_range (VStr "peak") VNone false
              2%positive false false Inputs.heap Inputs.kwargs eq_refl)
    as (_ & Hall & Hcalled).
  destruct (Hcalled Inputs.shape_table Inputs.samples_table) as [cfg Hev];
    [vm_compute; reflexivity|].
  destruct (Hall _ _ _ _ Hev) as (cfg' & Heq & Ha & _ & Hn).
  injection Heq as <-.
  exists cfg. split; [exact Hev|]. split; [exact Ha|].
  rewrite Hn. vm_compute. reflexivity.
Defined.
